(** * A shallow embedding of wasmer-rust-example

    The host ([src/src/main.rs]) registers four host functions with the
    wasmer runtime, instantiates the guest module ([wasm-sample-app]) and
    calls its exports [hello_wasm] and [fails].  The guest
    ([src/wasm-sample-app/src/lib.rs]) calls back into the host and, for
    [fails], installs a panic hook that forwards the panic message and
    location to the host function [register_panic] before aborting.

    Rust strings are modelled as their UTF-8 bytes ([list byte]); the
    guest's linear memory is a size plus a byte-valued load function; the
    wasm32 [u32]/[usize] scalars are [N]. *)

From Stdlib Require Import NArith ZArith List String Bool Lia.
From Stdlib Require Import Strings.Byte.
Import ListNotations.

Open Scope N_scope.

(** ** Byte strings *)

Definition bytes (s : string) : list byte := list_byte_of_string s.

(** The digits of an unsigned integer, as [format!("{}", n)] writes it. *)
Definition digit_byte (d : N) : byte :=
  match Byte.of_N (48 + d) with Some b => b | None => x30 end.

Fixpoint dec_digits (fuel : nat) (n : N) (acc : list byte) : list byte :=
  match fuel with
  | O => acc
  | S f =>
      let acc' := digit_byte (n mod 10) :: acc in
      if n <? 10 then acc' else dec_digits f (n / 10) acc'
  end.

Definition fmt_dec (n : N) : list byte :=
  dec_digits (S (N.to_nat (N.log2 n))) n [].

(** ** UTF-8 validation, as [std::str::from_utf8] checks it *)

Definition in_range (lo hi : N) (b : byte) : bool :=
  (lo <=? Byte.to_N b) && (Byte.to_N b <=? hi).

Definition cont_byte (b : byte) : bool := in_range 128 191 b.

(** Range allowed for the second byte of a three-byte sequence. *)
Definition second_of_3 (b0 b1 : byte) : bool :=
  match Byte.to_N b0 with
  | 224 => in_range 160 191 b1
  | 237 => in_range 128 159 b1
  | _ => cont_byte b1
  end.

(** Range allowed for the second byte of a four-byte sequence. *)
Definition second_of_4 (b0 b1 : byte) : bool :=
  match Byte.to_N b0 with
  | 240 => in_range 144 191 b1
  | 244 => in_range 128 143 b1
  | _ => cont_byte b1
  end.

Fixpoint utf8_valid (s : list byte) : bool :=
  match s with
  | [] => true
  | b0 :: r =>
      if Byte.to_N b0 <? 128 then utf8_valid r
      else if in_range 194 223 b0 then
        match r with
        | b1 :: r1 => cont_byte b1 && utf8_valid r1
        | _ => false
        end
      else if in_range 224 239 b0 then
        match r with
        | b1 :: b2 :: r2 => second_of_3 b0 b1 && cont_byte b2 && utf8_valid r2
        | _ => false
        end
      else if in_range 240 244 b0 then
        match r with
        | b1 :: b2 :: b3 :: r3 =>
            second_of_4 b0 b1 && cont_byte b2 && cont_byte b3 && utf8_valid r3
        | _ => false
        end
      else false
  end.

(** ** Linear memory and [WasmPtr::get_utf8_string]

    [ctx.memory(0)] is the guest's linear memory: its current byte length
    and the byte stored at each offset. *)
Record Memory := { mem_size : N; mem_load : N -> byte }.

Definition mem_read (m : Memory) (off len : N) : list byte :=
  map (fun i => mem_load m (off + N.of_nat i)) (seq 0 (N.to_nat len)).

(** [WasmPtr<u8, Array>::get_utf8_string] of the wasmer runtime (0.17):
    [None] when [offset + len] exceeds the memory size or [offset] is not
    below it (also for [len = 0]), otherwise [str::from_utf8(slice).ok()].
    All failures give the same [None]. *)
Definition get_utf8_string (m : Memory) (ptr len : N) : option (list byte) :=
  if (mem_size m <? ptr + len) || (mem_size m <=? ptr) then None
  else
    let s := mem_read m ptr len in
    if utf8_valid s then Some s else None.

(** ** Host data ([main.rs] lines 13-39) *)

Record PanicLocation := { file : list byte; line : N; column : N }.

Record PanicInfo := { message : list byte; location : option PanicLocation }.

(** [impl fmt::Display for PanicInfo] *)
Definition display_panic_info (pi : PanicInfo) : list byte :=
  message pi ++
  match location pi with
  | Some loc =>
      bytes ", " ++ file loc ++ bytes ":" ++ fmt_dec (line loc) ++ bytes ":"
      ++ fmt_dec (column loc)
  | None => []
  end.

(** Observable host effects: a line printed by [println!], and a write of
    the shared counter (the value it becomes). *)
Inductive Event :=
| Print (s : list byte)
| CounterSet (n : N).

(** The host state reachable from the host functions:
    [shared_data : Arc<Mutex<usize>>] (its value, and whether the mutex is
    poisoned by a panic raised while its guard was held),
    [panic_info : Arc<Mutex<Option<PanicInfo>>>] (never poisoned: nothing
    can panic while its guard is held) and the output so far. *)
Record HostState := {
  shared_data : N;
  shared_poisoned : bool;
  panic_info : option PanicInfo;
  out : list Event
}.

Definition emit (e : Event) (h : HostState) : HostState :=
  {| shared_data := shared_data h; shared_poisoned := shared_poisoned h;
     panic_info := panic_info h; out := out h ++ [e] |}.

Definition set_shared (n : N) (h : HostState) : HostState :=
  {| shared_data := n; shared_poisoned := shared_poisoned h;
     panic_info := panic_info h; out := out h ++ [CounterSet n] |}.

(** [*panic_info.lock().unwrap() = v] *)
Definition set_panic_info (v : option PanicInfo) (h : HostState) : HostState :=
  {| shared_data := shared_data h; shared_poisoned := shared_poisoned h;
     panic_info := v; out := out h |}.

(** Unwinding out of a panic drops a held [MutexGuard] of [shared_data]
    and poisons that mutex. *)
Definition poison (h : HostState) : HostState :=
  {| shared_data := shared_data h; shared_poisoned := true;
     panic_info := panic_info h; out := out h |}.

(** A host function returns normally or panics (a Rust panic with its
    message, e.g. from [unwrap]). *)
Inductive HostResult :=
| HOk (h : HostState)
| HPanic (msg : list byte) (h : HostState).

Definition unwrap_none_msg : list byte :=
  bytes "called `Option::unwrap()` on a `None` value".

Definition add_overflow_msg : list byte := bytes "attempt to add with overflow".

(** [data.lock().unwrap()] on a poisoned mutex. *)
Definition poison_unwrap_msg : list byte :=
  bytes "called `Result::unwrap()` on an `Err` value: PoisonError { .. }".

Definition usize_max : N := 2 ^ 64 - 1.

(** ** Host functions *)

(** [fn print_str] (lines 146-162) *)
Definition print_str (m : Memory) (ptr len : N) (h : HostState) : HostResult :=
  match get_utf8_string m ptr len with
  | None => HPanic unwrap_none_msg h
  | Some string => HOk (emit (Print string) h)
  end.

(** The closure [print_str2] (lines 47-57): decode, [data.lock().unwrap()],
    then [println!("{}: {}", guard, string)]. *)
Definition print_str2 (m : Memory) (ptr len : N) (h : HostState) : HostResult :=
  match get_utf8_string m ptr len with
  | None => HPanic unwrap_none_msg h
  | Some string =>
      if shared_poisoned h then HPanic poison_unwrap_msg h
      else HOk (emit (Print (fmt_dec (shared_data h) ++ bytes ": " ++ string)) h)
  end.

(** The closure [increment_shared] (lines 61-65): [data.lock().unwrap()],
    then [*guard += 1] with the overflow check of a debug build; that
    overflow panics while the guard is held, which poisons the mutex. *)
Definition increment_shared (h : HostState) : HostResult :=
  if shared_poisoned h then HPanic poison_unwrap_msg h
  else if usize_max <? shared_data h + 1 then HPanic add_overflow_msg (poison h)
  else HOk (set_shared (shared_data h + 1) h).

(** The closure [register_panic] (lines 69-91). *)
Definition register_panic (m : Memory)
    (err_msg_ptr err_msg_len loc_file_ptr loc_file_len loc_line loc_column : N)
    (h : HostState) : HostResult :=
  match get_utf8_string m err_msg_ptr err_msg_len with
  | None => HPanic unwrap_none_msg h
  | Some err_msg =>
      match get_utf8_string m loc_file_ptr loc_file_len with
      | None => HPanic unwrap_none_msg h
      | Some f =>
          let pi := {| message := err_msg;
                       location := Some {| file := f; line := loc_line;
                                           column := loc_column |} |} in
          HOk (set_panic_info (Some pi) h)
      end
  end.

(** ** The import object ([imports!], lines 104-115) *)

Inductive Import :=
| IPrintStr (ptr len : N)
| IPrintStr2 (ptr len : N)
| IIncrementShared
| IRegisterPanic (msg_ptr msg_len file_ptr file_len line column : N).

Definition host_import (m : Memory) (i : Import) (h : HostState) : HostResult :=
  match i with
  | IPrintStr p l => print_str m p l h
  | IPrintStr2 p l => print_str2 m p l h
  | IIncrementShared => increment_shared h
  | IRegisterPanic a b c d e f => register_panic m a b c d e f h
  end.

(** A straight-line sequence of imported calls made by the guest; it stops
    at the first host function that panics. *)
Fixpoint run_imports (m : Memory) (is : list Import) (h : HostState) : HostResult :=
  match is with
  | [] => HOk h
  | i :: r =>
      match host_import m i h with
      | HOk h' => run_imports m r h'
      | HPanic msg h' => HPanic msg h'
      end
  end.

(** ** The guest ([wasm-sample-app/src/lib.rs]) *)

(** A [&str] of the guest: pointer and length in linear memory. *)
Record GuestStr := { gptr : N; glen : N }.

(** Where the compiled guest places its string constants. *)
Record Layout := {
  hello_ptr : N;   (** [static HELLO] *)
  oh_no_ptr : N;   (** the literal ["oh no"] of [fails] *)
  lib_rs_ptr : N;  (** [file!()] of the panic in [fails] *)
  empty_ptr : N    (** the literal [""] of [hook] *)
}.

Definition HELLO_bytes : list byte := bytes "Hello, World!".
Definition OH_NO_bytes : list byte := bytes "oh no".
Definition LIB_RS_bytes : list byte := bytes "src/lib.rs".

Definition gstr (p : N) (b : list byte) : GuestStr :=
  {| gptr := p; glen := N.of_nat (List.length b) |}.

Definition HELLO (L : Layout) : GuestStr := gstr (hello_ptr L) HELLO_bytes.
Definition OH_NO (L : Layout) : GuestStr := gstr (oh_no_ptr L) OH_NO_bytes.
Definition LIB_RS (L : Layout) : GuestStr := gstr (lib_rs_ptr L) LIB_RS_bytes.
Definition EMPTY (L : Layout) : GuestStr := gstr (empty_ptr L) [].

(** Guest global state: the [Once] [SET_HOOK], whether a custom panic hook
    is installed ([std::panic::set_hook]) and how many times [set_hook] ran. *)
Record GuestState := {
  SET_HOOK : bool;
  custom_hook : bool;
  set_hook_calls : nat
}.

Definition guest_init : GuestState :=
  {| SET_HOOK := false; custom_hook := false; set_hook_calls := 0 |}.

(** [fn register_panic_hook] (lines 93-99): [SET_HOOK.call_once(|| set_hook(..))]. *)
Definition register_panic_hook (g : GuestState) : GuestState :=
  if SET_HOOK g then g
  else {| SET_HOOK := true; custom_hook := true;
          set_hook_calls := S (set_hook_calls g) |}.

(** The payload of a panic ([Box<dyn Any + Send>]): a [String], a
    [&'static str], or some other type. *)
Inductive Payload :=
| PString (s : GuestStr)
| PStaticStr (s : GuestStr)
| POther.

Record GLocation := { loc_file : GuestStr; loc_line : N; loc_column : N }.

(** [std::panic::PanicInfo] as the hook sees it. *)
Record GPanicInfo := { payload : Payload; glocation : option GLocation }.

(** The message the hook extracts (lines 57-62): downcast to [String], else
    to [&'static str], else [""]. *)
Definition hook_message (L : Layout) (p : Payload) : GuestStr :=
  match p with
  | PString s => s
  | PStaticStr s => s
  | POther => EMPTY L
  end.

(** The import call made by [fn hook] (lines 56-91). *)
Definition hook (L : Layout) (info : GPanicInfo) : Import :=
  let error_msg := hook_message L (payload info) in
  match glocation info with
  | Some loc =>
      IRegisterPanic (gptr error_msg) (glen error_msg)
        (gptr (loc_file loc)) (glen (loc_file loc)) (loc_line loc) (loc_column loc)
  | None => IRegisterPanic (gptr error_msg) (glen error_msg) 0 0 0 0
  end.

(** An export call ends normally or with an engine error: the trap raised
    by the guest's abort ([panic = "abort"] on wasm32 ends in [unreachable]),
    or a panic of a host function, which wasmer turns into a trap. *)
Inductive EngineError :=
| Trap_unreachable
| HostFnPanic (msg : list byte).

Inductive CallResult :=
| CallOk
| CallErr (e : EngineError).

Definition of_host (g : GuestState) (r : HostResult) : CallResult * GuestState * HostState :=
  match r with
  | HOk h' => (CallOk, g, h')
  | HPanic msg h' => (CallErr (HostFnPanic msg), g, h')
  end.

(** A guest panic: the installed hook runs (the default hook writes to
    stderr, which does nothing on wasm32-unknown-unknown), then the guest
    aborts. *)
Definition rust_panic (L : Layout) (m : Memory) (g : GuestState) (info : GPanicInfo)
    (h : HostState) : CallResult * GuestState * HostState :=
  if custom_hook g then
    match host_import m (hook L info) h with
    | HOk h' => (CallErr Trap_unreachable, g, h')
    | HPanic msg h' => (CallErr (HostFnPanic msg), g, h')
    end
  else (CallErr Trap_unreachable, g, h).

(** [pub extern "C" fn hello_wasm] (lines 27-37) *)
Definition hello_wasm (L : Layout) (m : Memory) (g : GuestState) (h : HostState)
    : CallResult * GuestState * HostState :=
  let s := HELLO L in
  of_host g (run_imports m
    [IPrintStr (gptr s) (glen s); IPrintStr2 (gptr s) (glen s);
     IIncrementShared; IIncrementShared; IPrintStr2 (gptr s) (glen s)] h).

(** The location of [panic!("oh no")] in [fails]: src/lib.rs:53:5. *)
Definition fails_panic_location (L : Layout) : GLocation :=
  {| loc_file := LIB_RS L; loc_line := 53; loc_column := 5 |}.

(** [pub extern "C" fn fails] (lines 50-54) *)
Definition fails (L : Layout) (m : Memory) (g : GuestState) (h : HostState)
    : CallResult * GuestState * HostState :=
  let g1 := register_panic_hook g in
  rust_panic L m g1 {| payload := PStaticStr (OH_NO L);
                       glocation := Some (fails_panic_location L) |} h.

(** ** The host driver ([fn main], lines 41-141) *)

Inductive Export := Hello_wasm | Fails.

(** [instance.call(name, &[])]: runs an export on the guest and host state. *)
Definition Engine := Export -> GuestState -> HostState -> CallResult * GuestState * HostState.

Definition instance_call (L : Layout) (m : Memory) : Engine :=
  fun e => match e with
           | Hello_wasm => hello_wasm L m
           | Fails => fails L m
           end.

Definition fails_should_err_msg : list byte :=
  bytes "calling 'fails' should have returned an error".

Definition captured_line (i : N) (pi : PanicInfo) : list byte :=
  bytes "call #" ++ fmt_dec i ++ bytes " to 'fails' correctly captured panic '"
  ++ display_panic_info pi ++ bytes "'".

Definition missed_line (i : N) : list byte :=
  bytes "call #" ++ fmt_dec i ++ bytes " to 'fails' failed to capture panic information".

Inductive LoopResult :=
| LCont (g : GuestState) (h : HostState)
| LPanic (msg : list byte) (g : GuestState) (h : HostState).

Inductive MainResult :=
| MainOk (g : GuestState) (h : HostState)
| MainErr (e : EngineError) (g : GuestState) (h : HostState)
| MainPanic (msg : list byte) (g : GuestState) (h : HostState).

(** The host state created at lines 43 and 67. *)
Definition host_init : HostState :=
  {| shared_data := 0; shared_poisoned := false; panic_info := None; out := [] |}.

Section Driver.
Variable call : Engine.

(** One iteration of [for i in 0..4] (lines 124-137). *)
Definition fails_iteration (i : N) (g : GuestState) (h : HostState) : LoopResult :=
  let h0 := set_panic_info None h in
  match call Fails g h0 with
  | (CallOk, g', h') => LPanic fails_should_err_msg g' h'
  | (CallErr _, g', h') =>
      match panic_info h' with
      | Some pi => LCont g' (emit (Print (captured_line i pi)) h')
      | None => LCont g' (emit (Print (missed_line i)) h')
      end
  end.

Fixpoint fails_loop (is : list N) (g : GuestState) (h : HostState) : LoopResult :=
  match is with
  | [] => LCont g h
  | i :: r =>
      match fails_iteration i g h with
      | LCont g' h' => fails_loop r g' h'
      | LPanic msg g' h' => LPanic msg g' h'
      end
  end.

(** [fn main] after a successful [instantiate], from the guest state [g0]
    of the fresh instance. *)
Definition main (g0 : GuestState) : MainResult :=
  match call Hello_wasm g0 host_init with
  | (CallErr e, g1, h1) => MainErr e g1 h1
  | (CallOk, g1, h1) =>
      match fails_loop [0; 1; 2; 3] g1 h1 with
      | LCont g h => MainOk g h
      | LPanic msg g h => MainPanic msg g h
      end
  end.
End Driver.

(** ** Layout hypotheses and a sample memory *)

(** The guest string [s] holds the bytes [b] inside the memory bounds. *)
Definition static_at (m : Memory) (s : GuestStr) (b : list byte) : Prop :=
  gptr s + glen s <= mem_size m /\ mem_read m (gptr s) (glen s) = b.

Definition layout_ok (L : Layout) (m : Memory) : Prop :=
  static_at m (HELLO L) HELLO_bytes /\ static_at m (OH_NO L) OH_NO_bytes /\
  static_at m (LIB_RS L) LIB_RS_bytes /\ static_at m (EMPTY L) [].

(** Memory filled from data segments, zero elsewhere. *)
Fixpoint seg_load (segs : list (N * list byte)) (i : N) : byte :=
  match segs with
  | [] => x00
  | (base, bs) :: r =>
      if (base <=? i) && (i <? base + N.of_nat (List.length bs))
      then nth (N.to_nat (i - base)) bs x00
      else seg_load r i
  end.

Definition L0 : Layout :=
  {| hello_ptr := 1048576; oh_no_ptr := 1048589; lib_rs_ptr := 1048594;
     empty_ptr := 1048604 |}.

(** Seventeen 64 KiB pages with the guest's constants in its data segment. *)
Definition m0 : Memory :=
  {| mem_size := 17 * 65536;
     mem_load := seg_load [(1048576, HELLO_bytes); (1048589, OH_NO_bytes);
                           (1048594, LIB_RS_bytes)] |}.

(** Writing the bytes [bs] at address [a] of linear memory. *)
Definition mem_store (m : Memory) (a : N) (bs : list byte) : Memory :=
  {| mem_size := mem_size m;
     mem_load := fun i =>
       if (a <=? i) && (i <? a + N.of_nat (List.length bs))
       then nth (N.to_nat (i - a)) bs x00 else mem_load m i |}.

(** The argument "Rust" written at address 4096 of [m0]. *)
Definition m_rust : Memory := mem_store m0 4096 (bytes "Rust").

(** The record the host builds from the panic in [fails]. *)
Definition oh_no_info : PanicInfo :=
  {| message := OH_NO_bytes;
     location := Some {| file := LIB_RS_bytes; line := 53; column := 5 |} |}.

(** What [hello_wasm] prints and writes, from a counter at zero. *)
Definition hello_out : list Event :=
  [Print HELLO_bytes; Print (bytes "0: Hello, World!"); CounterSet 1; CounterSet 2;
   Print (bytes "2: Hello, World!")].


(** ** Helper lemmas *)

Lemma get_utf8_string_in (m : Memory) (s : GuestStr) (b : list byte) :
  gptr s < mem_size m -> static_at m s b -> utf8_valid b = true ->
  get_utf8_string m (gptr s) (glen s) = Some b.
Proof.
  intros Hlt [Hle Hrd] Hv. unfold get_utf8_string.
  replace (mem_size m <? gptr s + glen s) with false
    by (symmetry; apply N.ltb_ge; exact Hle).
  replace (mem_size m <=? gptr s) with false
    by (symmetry; apply N.leb_gt; exact Hlt).
  cbn [orb]. rewrite Hrd, Hv. reflexivity.
Qed.

Lemma static_nonempty_lt (m : Memory) (s : GuestStr) (b : list byte) :
  static_at m s b -> b <> [] -> gptr s < mem_size m.
Proof.
  intros [Hle Hrd] Hne. destruct (N.eq_dec (glen s) 0) as [E|E].
  - exfalso. apply Hne. rewrite <- Hrd, E. reflexivity.
  - lia.
Qed.

Lemma get_utf8_string_static (m : Memory) (s : GuestStr) (b : list byte) :
  static_at m s b -> b <> [] -> utf8_valid b = true ->
  get_utf8_string m (gptr s) (glen s) = Some b.
Proof.
  intros Hs Hne Hv. apply get_utf8_string_in; auto.
  exact (static_nonempty_lt m s b Hs Hne).
Qed.

Lemma get_utf8_string_empty (m : Memory) (p : N) :
  p < mem_size m -> get_utf8_string m p 0 = Some [].
Proof.
  intros Hlt. unfold get_utf8_string.
  replace (mem_size m <? p + 0) with false
    by (symmetry; apply N.ltb_ge; lia).
  replace (mem_size m <=? p) with false
    by (symmetry; apply N.leb_gt; exact Hlt).
  reflexivity.
Qed.

(** A successful decode starts inside the memory. *)
Lemma get_utf8_string_some_lt (m : Memory) (p l : N) (s : list byte) :
  get_utf8_string m p l = Some s -> p < mem_size m.
Proof.
  unfold get_utf8_string. destruct (mem_size m <=? p) eqn:E.
  - rewrite orb_true_r. discriminate.
  - intros _. apply N.leb_gt. exact E.
Qed.

Lemma hello_wasm_run (L : Layout) (m : Memory) (g : GuestState) (h : HostState) :
  layout_ok L m -> shared_data h = 0 -> shared_poisoned h = false ->
  hello_wasm L m g h =
  (CallOk, g, {| shared_data := 2; shared_poisoned := false; panic_info := panic_info h;
                 out := out h ++ hello_out |}).
Proof.
  intros [Hh _] H0 Hp. unfold hello_wasm.
  pose proof (get_utf8_string_static m (HELLO L) HELLO_bytes Hh ltac:(discriminate) eq_refl) as Hg.
  remember (HELLO L) as s eqn:Es. clear Es Hh.
  cbn [run_imports host_import]. unfold print_str, print_str2.
  destruct h as [sd sp pi o]; cbn in H0, Hp; subst sd sp.
  repeat (cbn -[get_utf8_string]; rewrite ?Hg).
  unfold emit, set_shared; cbn. repeat rewrite <- app_assoc. reflexivity.
Qed.






(** ** Claims *)

(** C6: calling [hello_wasm] succeeds and its host-observable effects are, in
    order: print "Hello, World!", print "0: Hello, World!", the counter
    becomes 1, the counter becomes 2, print "2: Hello, World!" (from the
    fresh host state of [main], the guest's constants in memory). *)
Theorem hello_wasm_side_effects (L : Layout) (m : Memory) (g : GuestState) :
  layout_ok L m ->
  exists g' h', instance_call L m Hello_wasm g host_init = (CallOk, g', h') /\
  out h' = [Print (bytes "Hello, World!"); Print (bytes "0: Hello, World!");
            CounterSet 1; CounterSet 2; Print (bytes "2: Hello, World!")].
Proof.
  intros Hok. cbn [instance_call].
  rewrite (hello_wasm_run L m g host_init Hok eq_refl eq_refl).
  eexists; eexists; split; reflexivity.
Qed.

Lemma hello_wasm_side_effects_witness :
  layout_ok L0 m0 /\
  exists g' h', instance_call L0 m0 Hello_wasm guest_init host_init = (CallOk, g', h') /\
  out h' = [Print (bytes "Hello, World!"); Print (bytes "0: Hello, World!");
            CounterSet 1; CounterSet 2; Print (bytes "2: Hello, World!")].
Proof.
  assert (H : layout_ok L0 m0) by (repeat split; vm_compute; congruence).
  split; [exact H | apply (hello_wasm_side_effects L0 m0 guest_init H)].
Defined.

Lemma layout_ok_L0 : layout_ok L0 m0.
Proof. repeat split; vm_compute; congruence. Qed.



(** C10: if the call of [fails] in an iteration of the loop returns
    success, the driver stops with the host panic "calling 'fails' should
    have returned an error" instead of going on with the loop. *)
Theorem fails_ok_panics_host (call : Engine) (i : N) (is : list N)
    (g g' : GuestState) (h h' : HostState) :
  call Fails g (set_panic_info None h) = (CallOk, g', h') ->
  fails_loop call (i :: is) g h = LPanic fails_should_err_msg g' h'.
Proof.
  intros Hc. cbn [fails_loop]. unfold fails_iteration. rewrite Hc. reflexivity.
Qed.

(** An engine on which every call succeeds without effect. *)
Definition engine_always_ok : Engine := fun _ g h => (CallOk, g, h).

Lemma fails_ok_panics_host_witness :
  engine_always_ok Fails guest_init (set_panic_info None host_init) =
    (CallOk, guest_init, set_panic_info None host_init) /\
  fails_loop engine_always_ok [0; 1; 2; 3] guest_init host_init =
    LPanic fails_should_err_msg guest_init (set_panic_info None host_init).
Proof.
  split; [reflexivity |].
  apply (fails_ok_panics_host engine_always_ok 0 [1; 2; 3] guest_init guest_init
           host_init (set_panic_info None host_init)).
  reflexivity.
Defined.

Lemma fails_loop_only_empty_slot (call call' : Engine) :
  (forall e g h, panic_info h = None -> call' e g h = call e g h) ->
  forall is g h, fails_loop call' is g h = fails_loop call is g h.
Proof.
  intros Hc is. induction is as [|i r IH]; intros g h; [reflexivity |].
  cbn [fails_loop]. unfold fails_iteration.
  rewrite (Hc Fails g (set_panic_info None h) eq_refl).
  destruct (call Fails g (set_panic_info None h)) as [[[|e] g'] h'];
    [reflexivity |].
  destruct (panic_info h'); apply IH.
Qed.

Definition not_register (i : Import) : Prop :=
  match i with IRegisterPanic _ _ _ _ _ _ => False | _ => True end.

Lemma host_import_no_register (m : Memory) (i : Import) (h h1 : HostState) :
  not_register i -> host_import m i h = HOk h1 -> panic_info h1 = panic_info h.
Proof.
  intros Hi Hc. destruct i as [p l|p l| |a b c d e f]; cbn [host_import] in Hc.
  - unfold print_str in Hc. destruct (get_utf8_string m p l); [| discriminate].
    injection Hc as <-. reflexivity.
  - unfold print_str2 in Hc. destruct (get_utf8_string m p l); [| discriminate].
    destruct (shared_poisoned h); [discriminate |].
    injection Hc as <-. reflexivity.
  - unfold increment_shared in Hc. destruct (shared_poisoned h); [discriminate |].
    destruct (_ <? _); [discriminate |].
    injection Hc as <-. reflexivity.
  - contradiction.
Qed.

Lemma run_imports_no_register (m : Memory) (is : list Import) (h h' : HostState) :
  Forall not_register is ->
  run_imports m is h = HOk h' -> panic_info h' = panic_info h.
Proof.
  revert h. induction is as [|i r IH]; intros h Hall Hrun.
  - cbn in Hrun. congruence.
  - inversion Hall as [|? ? Hi Hr]; subst. cbn [run_imports] in Hrun.
    destruct (host_import m i h) as [h1|msg h1] eqn:E; [| discriminate].
    rewrite (IH h1 Hr Hrun). exact (host_import_no_register m i h h1 Hi E).
Qed.

(** C4: the driver invokes guest exports only while the channel is empty
    (fresh before [hello_wasm], reset before each [fails]): [main] gives the
    same result on any engine that agrees with it on the states whose
    channel is empty.  And a guest call that does not fail, started on an
    empty channel, leaves it empty. *)
Theorem guest_calls_start_on_empty_channel :
  (forall (call call' : Engine) (g0 : GuestState),
     (forall e g h, panic_info h = None -> call' e g h = call e g h) ->
     main call' g0 = main call g0) /\
  (forall L m e g h g' h',
     instance_call L m e g (set_panic_info None h) = (CallOk, g', h') ->
     panic_info h' = None).
Proof.
  split.
  - intros call call' g0 Hc. unfold main.
    rewrite (Hc Hello_wasm g0 host_init eq_refl).
    destruct (call Hello_wasm g0 host_init) as [[[|e] g1] h1]; [| reflexivity].
    rewrite (fails_loop_only_empty_slot call call' Hc). reflexivity.
  - intros L m [|] g h g' h' Hc; cbn [instance_call] in Hc.
    + unfold hello_wasm, of_host in Hc.
      destruct (run_imports _ _ _) as [h1|msg h1] eqn:Hrun; [| discriminate].
      injection Hc as <- <-.
      eapply run_imports_no_register in Hrun;
        [rewrite Hrun; reflexivity | repeat constructor].
    + unfold fails, rust_panic in Hc.
      destruct (custom_hook _); [destruct (host_import _ _ _) |]; discriminate.
Qed.

(** C7: the channel is an [option]: zero or one record.  A successful
    [register_panic] stores the record built from its own arguments,
    whatever the channel held before: the last write wins. *)
Theorem register_panic_last_write_wins (m : Memory)
    (a1 b1 c1 d1 e1 f1 a2 b2 c2 d2 e2 f2 : N) (h h1 h2 : HostState) :
  register_panic m a1 b1 c1 d1 e1 f1 h = HOk h1 ->
  register_panic m a2 b2 c2 d2 e2 f2 h1 = HOk h2 ->
  exists pi, panic_info h2 = Some pi /\
    (forall h0 h0', register_panic m a2 b2 c2 d2 e2 f2 h0 = HOk h0' ->
                    panic_info h0' = Some pi).
Proof.
  intros _ H2. unfold register_panic in *.
  destruct (get_utf8_string m a2 b2) as [msg|]; [| discriminate].
  destruct (get_utf8_string m c2 d2) as [f|]; [| discriminate].
  injection H2 as <-. eexists; split; [reflexivity |].
  intros h0 h0' H0. injection H0 as <-. reflexivity.
Qed.

Lemma register_panic_last_write_wins_witness :
  register_panic m0 1048576 13 1048594 10 1 1 host_init =
    HOk (set_panic_info (Some {| message := HELLO_bytes;
           location := Some {| file := LIB_RS_bytes; line := 1; column := 1 |} |})
         host_init) /\
  register_panic m0 1048589 5 1048594 10 53 5
    (set_panic_info (Some {| message := HELLO_bytes;
       location := Some {| file := LIB_RS_bytes; line := 1; column := 1 |} |}) host_init) =
    HOk (set_panic_info (Some oh_no_info) host_init) /\
  exists pi, panic_info (set_panic_info (Some oh_no_info) host_init) = Some pi /\
    (forall h0 h0', register_panic m0 1048589 5 1048594 10 53 5 h0 = HOk h0' ->
                    panic_info h0' = Some pi).
Proof.
  assert (H1 : register_panic m0 1048576 13 1048594 10 1 1 host_init =
    HOk (set_panic_info (Some {| message := HELLO_bytes;
           location := Some {| file := LIB_RS_bytes; line := 1; column := 1 |} |})
         host_init)) by (vm_compute; reflexivity).
  assert (H2 : register_panic m0 1048589 5 1048594 10 53 5
    (set_panic_info (Some {| message := HELLO_bytes;
       location := Some {| file := LIB_RS_bytes; line := 1; column := 1 |} |}) host_init) =
    HOk (set_panic_info (Some oh_no_info) host_init)) by (vm_compute; reflexivity).
  split; [exact H1 | split; [exact H2 |]].
  exact (register_panic_last_write_wins m0 _ _ _ _ _ _ _ _ _ _ _ _ _ _ _ H1 H2).
Defined.

(** An engine that behaves like the real one on an empty channel and
    succeeds without effect otherwise. *)
Definition engine_on_empty (call : Engine) : Engine :=
  fun e g h => match panic_info h with
               | None => call e g h
               | Some _ => (CallOk, g, h)
               end.

Lemma guest_calls_start_on_empty_channel_witness :
  main (engine_on_empty (instance_call L0 m0)) guest_init =
    main (instance_call L0 m0) guest_init /\
  instance_call L0 m0 Hello_wasm guest_init (set_panic_info None host_init) =
    (CallOk, guest_init,
     {| shared_data := 2; shared_poisoned := false; panic_info := None; out := hello_out |}) /\
  panic_info {| shared_data := 2; shared_poisoned := false; panic_info := None; out := hello_out |} = None.
Proof.
  destruct guest_calls_start_on_empty_channel as [H1 H2].
  assert (Hc : instance_call L0 m0 Hello_wasm guest_init (set_panic_info None host_init) =
    (CallOk, guest_init, {| shared_data := 2; shared_poisoned := false; panic_info := None; out := hello_out |}))
    by (vm_compute; reflexivity).
  split; [| split; [exact Hc | exact (H2 L0 m0 _ _ _ _ _ Hc)]].
  apply H1. intros e g h Hn. unfold engine_on_empty. rewrite Hn. reflexivity.
Defined.

(** C8: [register_panic_hook] installs the hook on its first call only: any
    number n >= 1 of calls from the uninstalled state runs [set_hook]
    exactly once and leaves the hook installed. *)
Theorem register_panic_hook_once (n : nat) (g : GuestState) :
  SET_HOOK g = false -> (0 < n)%nat ->
  let g' := Nat.iter n register_panic_hook g in
  SET_HOOK g' = true /\ custom_hook g' = true /\ set_hook_calls g' = S (set_hook_calls g).
Proof.
  intros Hs Hn. destruct n as [|k]; [lia |]. clear Hn. cbv zeta.
  induction k as [|k IH].
  - cbn. unfold register_panic_hook. rewrite Hs. cbn. auto.
  - destruct IH as [H1 [H2 H3]].
    change (Nat.iter (S (S k)) register_panic_hook g)
      with (register_panic_hook (Nat.iter (S k) register_panic_hook g)).
    assert (Hfix : forall x, SET_HOOK x = true -> register_panic_hook x = x)
      by (intros x Hx; unfold register_panic_hook; rewrite Hx; reflexivity).
    rewrite (Hfix _ H1). auto.
Qed.

Lemma register_panic_hook_once_witness :
  SET_HOOK guest_init = false /\ (0 < 4)%nat /\
  (SET_HOOK (Nat.iter 4 register_panic_hook guest_init) = true /\
   custom_hook (Nat.iter 4 register_panic_hook guest_init) = true /\
   set_hook_calls (Nat.iter 4 register_panic_hook guest_init) = 1%nat).
Proof.
  split; [reflexivity | split; [lia |]].
  exact (register_panic_hook_once 4 guest_init eq_refl ltac:(lia)).
Defined.

(** C9: the hook takes the message from a [String] payload or a
    [&'static str] payload, and from any other payload the empty string
    [""]; it always goes on to call [register_panic] with that message's
    pointer and length, and the host then records an empty message (the
    runtime's decode needs the empty string's pointer below the memory
    size, as it is for the guest's data segment). *)
Theorem hook_message_extraction (L : Layout) :
  (forall s, hook_message L (PString s) = s) /\
  (forall s, hook_message L (PStaticStr s) = s) /\
  hook_message L POther = EMPTY L /\ glen (EMPTY L) = 0 /\
  (forall info, exists c d e f,
     hook L info = IRegisterPanic (gptr (hook_message L (payload info)))
                                  (glen (hook_message L (payload info))) c d e f) /\
  (forall m info h, layout_ok L m -> gptr (EMPTY L) < mem_size m ->
     payload info = POther -> glocation info = None ->
     exists h', host_import m (hook L info) h = HOk h' /\
       option_map message (panic_info h') = Some []).
Proof.
  split; [reflexivity | split; [reflexivity | split; [reflexivity | split; [reflexivity |]]]].
  split.
  - intros [p [loc|]]; unfold hook; cbn [glocation payload]; do 4 eexists; reflexivity.
  - intros m [p loc] h [_ [_ [_ He]]] Hlt Hp Hl; cbn in Hp, Hl; subst p loc.
    unfold hook; cbn [glocation payload hook_message host_import]. unfold register_panic.
    rewrite (get_utf8_string_in m (EMPTY L) [] Hlt He eq_refl).
    rewrite (get_utf8_string_empty m 0 ltac:(lia)).
    eexists; split; reflexivity.
Qed.

Lemma hook_message_extraction_witness :
  layout_ok L0 m0 /\ gptr (EMPTY L0) < mem_size m0 /\
  exists h', host_import m0 (hook L0 {| payload := POther; glocation := None |}) host_init
             = HOk h' /\ option_map message (panic_info h') = Some [].
Proof.
  assert (Hlt : gptr (EMPTY L0) < mem_size m0) by (vm_compute; reflexivity).
  split; [exact layout_ok_L0 | split; [exact Hlt |]].
  destruct (hook_message_extraction L0) as [_ [_ [_ [_ [_ H]]]]].
  exact (H m0 {| payload := POther; glocation := None |} host_init layout_ok_L0 Hlt
           eq_refl eq_refl).
Defined.

(** C1 (as the code does it): [register_panic] called with the "no
    location" sentinel [file_ptr = 0], [file_len = 0], [line = column = 0]
    stores a present location with an empty file name and zero line and
    column, not an absent location. *)
Theorem register_panic_sentinel_location (m : Memory) (p l : N) (s : list byte)
    (h : HostState) :
  get_utf8_string m p l = Some s ->
  register_panic m p l 0 0 0 0 h =
  HOk (set_panic_info
         (Some {| message := s;
                  location := Some {| file := []; line := 0; column := 0 |} |}) h).
Proof.
  intros Hs. unfold register_panic. rewrite Hs.
  pose proof (get_utf8_string_some_lt m p l s Hs).
  rewrite (get_utf8_string_empty m 0 ltac:(lia)). reflexivity.
Qed.

(** The hook, for a panic without location, makes exactly that call. *)
Lemma register_panic_sentinel_location_witness :
  get_utf8_string m0 (oh_no_ptr L0) 5 = Some OH_NO_bytes /\
  hook L0 {| payload := PStaticStr (OH_NO L0); glocation := None |} =
    IRegisterPanic (oh_no_ptr L0) 5 0 0 0 0 /\
  register_panic m0 (oh_no_ptr L0) 5 0 0 0 0 host_init =
  HOk (set_panic_info
         (Some {| message := OH_NO_bytes;
                  location := Some {| file := []; line := 0; column := 0 |} |}) host_init).
Proof.
  assert (H : get_utf8_string m0 (oh_no_ptr L0) 5 = Some OH_NO_bytes)
    by (vm_compute; reflexivity).
  split; [exact H | split; [reflexivity |]].
  exact (register_panic_sentinel_location m0 (oh_no_ptr L0) 5 OH_NO_bytes host_init H).
Defined.

(** C3 fails: the driver never clears the slot when it reads it.  After the
    first iteration of the loop has read the record [x] (line 129), the slot
    still holds [x], so a second read gives [x] again, not "absent". *)
Lemma driver_read_keeps_record_counterexample :
  exists g h, fails_iteration (instance_call L0 m0) 0 guest_init host_init = LCont g h /\
              panic_info h = Some oh_no_info /\ panic_info h <> None.
Proof.
  do 2 eexists. split; [vm_compute; reflexivity |]. split; [reflexivity | discriminate].
Qed.

(** C3 (amended): the driver reads the slot in place: after a failed call,
    the state the iteration hands on still holds whatever the call stored
    (a set record stays readable until the next write); only the reset at
    the start of the next iteration empties it. *)
Theorem driver_read_keeps_record (call : Engine) (i : N) (g g' : GuestState)
    (h h' : HostState) (e : EngineError) :
  call Fails g (set_panic_info None h) = (CallErr e, g', h') ->
  exists h'', fails_iteration call i g h = LCont g' h'' /\
              panic_info h'' = panic_info h'.
Proof.
  intros Hc. unfold fails_iteration. rewrite Hc.
  destruct (panic_info h') as [pi|] eqn:E; eexists; split; try reflexivity;
    cbn; congruence.
Qed.

Lemma driver_read_keeps_record_witness :
  instance_call L0 m0 Fails guest_init (set_panic_info None host_init) =
    (CallErr Trap_unreachable, register_panic_hook guest_init,
     set_panic_info (Some oh_no_info) (set_panic_info None host_init)) /\
  exists h'', fails_iteration (instance_call L0 m0) 0 guest_init host_init =
                LCont (register_panic_hook guest_init) h'' /\
              panic_info h'' = Some oh_no_info.
Proof.
  assert (Hc : instance_call L0 m0 Fails guest_init (set_panic_info None host_init) =
    (CallErr Trap_unreachable, register_panic_hook guest_init,
     set_panic_info (Some oh_no_info) (set_panic_info None host_init)))
    by (vm_compute; reflexivity).
  split; [exact Hc |].
  exact (driver_read_keeps_record (instance_call L0 m0) 0 _ _ _ _ _ Hc).
Defined.

(** A one-page memory filled with the byte 0xFF, which is never valid UTF-8. *)
Definition m_ff : Memory := {| mem_size := 65536; mem_load := fun _ => xff |}.

(** C5 fails: there is no [DecodeError]; an out-of-bounds range and an
    invalid UTF-8 range both decode to the same [None], and [print_str]
    unwraps it into a panic of the host function. *)
Lemma decode_failure_counterexample :
  get_utf8_string m0 (mem_size m0) 1 = None /\
  get_utf8_string m_ff 0 1 = None /\
  print_str m0 (mem_size m0) 1 host_init = HPanic unwrap_none_msg host_init /\
  print_str m_ff 0 1 host_init = HPanic unwrap_none_msg host_init.
Proof. vm_compute. repeat split. Qed.

(** C5 (amended): [get_utf8_string] gives [None], the same value for both
    causes, when [offset + length] exceeds the memory size or when the range
    is not valid UTF-8; [print_str], [print_str2] and [register_panic]
    unwrap it, so a failed decode is a host-function panic
    ("called `Option::unwrap()` on a `None` value") with the host state
    unchanged. *)
Theorem decode_failure_is_host_panic (m : Memory) (p l : N) :
  (mem_size m < p + l -> get_utf8_string m p l = None) /\
  (p + l <= mem_size m -> utf8_valid (mem_read m p l) = false ->
   get_utf8_string m p l = None) /\
  (get_utf8_string m p l = None -> forall h,
     print_str m p l h = HPanic unwrap_none_msg h /\
     print_str2 m p l h = HPanic unwrap_none_msg h /\
     (forall c d e f, register_panic m p l c d e f h = HPanic unwrap_none_msg h) /\
     (forall a b e f, register_panic m a b p l e f h = HPanic unwrap_none_msg h)).
Proof.
  split; [| split].
  - intros Hlt. unfold get_utf8_string.
    replace (mem_size m <? p + l) with true by (symmetry; apply N.ltb_lt; exact Hlt).
    reflexivity.
  - intros Hle Hv. unfold get_utf8_string.
    replace (mem_size m <? p + l) with false by (symmetry; apply N.ltb_ge; exact Hle).
    cbv zeta. rewrite Hv. destruct (mem_size m <=? p); reflexivity.
  - intros Hn h. unfold print_str, print_str2, register_panic. rewrite Hn.
    split; [reflexivity | split; [reflexivity | split]].
    + intros; reflexivity.
    + intros a b e f. destruct (get_utf8_string m a b); reflexivity.
Qed.

Lemma decode_failure_is_host_panic_witness :
  mem_size m0 < mem_size m0 + 1 /\
  get_utf8_string m0 (mem_size m0) 1 = None /\
  print_str m0 (mem_size m0) 1 host_init = HPanic unwrap_none_msg host_init /\
  (0 + 1 <= mem_size m_ff /\ utf8_valid (mem_read m_ff 0 1) = false /\
   get_utf8_string m_ff 0 1 = None /\
   print_str2 m_ff 0 1 host_init = HPanic unwrap_none_msg host_init).
Proof.
  destruct (decode_failure_is_host_panic m0 (mem_size m0) 1) as [Ho [_ Hp]].
  destruct (decode_failure_is_host_panic m_ff 0 1) as [_ [Hu Hp']].
  assert (H1 : mem_size m0 < mem_size m0 + 1) by (vm_compute; reflexivity).
  assert (H2 : 0 + 1 <= mem_size m_ff) by (vm_compute; discriminate).
  assert (H3 : utf8_valid (mem_read m_ff 0 1) = false) by (vm_compute; reflexivity).
  pose proof (Ho H1) as Hn. pose proof (Hu H2 H3) as Hn'.
  split; [exact H1 | split; [exact Hn | split; [apply (Hp Hn host_init) |]]].
  split; [exact H2 | split; [exact H3 | split; [exact Hn' | apply (Hp' Hn' host_init)]]].
Defined.

(** ** Further properties of the host functions *)

(** [n] calls of [increment_shared] in a row. *)
Definition increments (n : nat) : list Import := repeat IIncrementShared n.

(** The values the counter takes during [n] increments from [c]. *)
Definition counter_writes (c : N) (n : nat) : list Event :=
  map (fun k => CounterSet (c + N.of_nat k)) (seq 1 n).

Lemma counter_writes_succ (c : N) (n : nat) :
  counter_writes c (S n) = CounterSet (c + 1) :: counter_writes (c + 1) n.
Proof.
  unfold counter_writes. cbn [seq map]. f_equal.
  rewrite <- seq_shift, map_map. apply map_ext. intros k. f_equal. lia.
Qed.

(** X1: [n] successive calls of [increment_shared] lose no update: from a
    counter [c] with [c + n] representable, the counter ends at [c + n],
    after taking the values [c+1], ..., [c+n] in turn. *)
Theorem increment_shared_n_times (m : Memory) (n : nat) (h : HostState) :
  shared_poisoned h = false ->
  shared_data h + N.of_nat n <= usize_max ->
  run_imports m (increments n) h =
  HOk {| shared_data := shared_data h + N.of_nat n; shared_poisoned := false;
         panic_info := panic_info h;
         out := out h ++ counter_writes (shared_data h) n |}.
Proof.
  revert h. induction n as [|k IH]; intros h Hp Hb.
  - cbn. rewrite N.add_0_r, app_nil_r. destruct h; cbn in Hp; subst; reflexivity.
  - cbn [increments repeat run_imports host_import]. unfold increment_shared.
    rewrite Hp.
    replace (usize_max <? shared_data h + 1) with false
      by (symmetry; apply N.ltb_ge; lia).
    rewrite IH by (unfold set_shared; cbn [shared_data shared_poisoned]; auto; lia).
    rewrite counter_writes_succ. unfold set_shared. cbn [shared_data panic_info out].
    rewrite <- app_assoc. cbn [app]. f_equal. f_equal. lia.
Qed.

Lemma increment_shared_n_times_witness :
  shared_poisoned host_init = false /\
  shared_data host_init + N.of_nat 3 <= usize_max /\
  run_imports m0 (increments 3) host_init =
  HOk {| shared_data := 3; shared_poisoned := false; panic_info := None;
         out := [CounterSet 1; CounterSet 2; CounterSet 3] |}.
Proof.
  assert (Hb : shared_data host_init + N.of_nat 3 <= usize_max)
    by (vm_compute; discriminate).
  split; [reflexivity | split; [exact Hb |]].
  exact (increment_shared_n_times m0 3 host_init eq_refl Hb).
Defined.

(** A host state whose counter is at [usize::MAX]. *)
Definition h_max : HostState :=
  {| shared_data := usize_max; shared_poisoned := false; panic_info := None; out := [] |}.



(** X3: a host function that panics prints nothing and leaves the counter
    and the panic slot as they were.  Its only effect on the host state is
    the one of an overflowing [increment_shared], which poisons the
    counter's mutex; every other panic leaves the state untouched. *)
Theorem host_import_panic_no_effect (m : Memory) (i : Import) (h h' : HostState)
    (msg : list byte) :
  host_import m i h = HPanic msg h' ->
  (h' = h \/ (i = IIncrementShared /\ msg = add_overflow_msg /\ h' = poison h)) /\
  shared_data h' = shared_data h /\ panic_info h' = panic_info h /\ out h' = out h.
Proof.
  intros Hc.
  assert (Hd : h' = h \/ (i = IIncrementShared /\ msg = add_overflow_msg /\ h' = poison h)).
  { destruct i as [p l|p l| |a b c d e f]; cbn [host_import] in Hc.
    - unfold print_str in Hc. destruct (get_utf8_string m p l); inversion Hc; auto.
    - unfold print_str2 in Hc. destruct (get_utf8_string m p l);
        [destruct (shared_poisoned h) |]; inversion Hc; auto.
    - unfold increment_shared in Hc. destruct (shared_poisoned h); [inversion Hc; auto |].
      destruct (_ <? _); inversion Hc; auto.
    - unfold register_panic in Hc.
      destruct (get_utf8_string m a b); [destruct (get_utf8_string m c d) |];
        inversion Hc; auto. }
  split; [exact Hd |].
  destruct Hd as [-> | [_ [_ ->]]]; auto.
Qed.

Lemma host_import_panic_no_effect_witness :
  host_import m0 IIncrementShared h_max = HPanic add_overflow_msg (poison h_max) /\
  ((poison h_max = h_max \/
    (IIncrementShared = IIncrementShared /\ add_overflow_msg = add_overflow_msg /\
     poison h_max = poison h_max)) /\
   shared_data (poison h_max) = shared_data h_max /\
   panic_info (poison h_max) = panic_info h_max /\ out (poison h_max) = out h_max).
Proof.
  assert (Hc : host_import m0 IIncrementShared h_max = HPanic add_overflow_msg (poison h_max))
    by (vm_compute; reflexivity).
  split; [exact Hc | exact (host_import_panic_no_effect m0 _ _ _ _ Hc)].
Defined.

(** X4: [print_str] and [print_str2] only print: on success they add
    exactly one line to the output and change neither the counter nor the
    panic slot. *)
Theorem print_fns_only_print (m : Memory) (p l : N) (h h' : HostState) :
  (print_str m p l h = HOk h' \/ print_str2 m p l h = HOk h') ->
  shared_data h' = shared_data h /\ panic_info h' = panic_info h /\
  exists s, out h' = out h ++ [Print s].
Proof.
  unfold print_str, print_str2. destruct (get_utf8_string m p l) as [s|];
    [destruct (shared_poisoned h) |];
    intros [Hc|Hc]; inversion Hc; subst; cbn; repeat split; eauto.
Qed.

Lemma print_fns_only_print_witness :
  (print_str m0 (hello_ptr L0) 13 host_init = HOk (emit (Print HELLO_bytes) host_init) \/
   print_str2 m0 (hello_ptr L0) 13 host_init = HOk (emit (Print HELLO_bytes) host_init)) /\
  exists s, out (emit (Print HELLO_bytes) host_init) = out host_init ++ [Print s].
Proof.
  assert (Hc : print_str m0 (hello_ptr L0) 13 host_init =
                 HOk (emit (Print HELLO_bytes) host_init)) by (vm_compute; reflexivity).
  split; [left; exact Hc |].
  exact (proj2 (proj2 (print_fns_only_print m0 _ _ _ _ (or_introl Hc)))).
Defined.



(** X6: decoding reads nothing outside the requested range: two memories
    of the same size that agree on the bytes [ptr .. ptr+len) give the same
    result for [get_utf8_string], whatever the bytes around the range. *)
Theorem get_utf8_string_local (m1 m2 : Memory) (p l : N) :
  mem_size m1 = mem_size m2 ->
  (forall i, p <= i < p + l -> mem_load m1 i = mem_load m2 i) ->
  get_utf8_string m1 p l = get_utf8_string m2 p l.
Proof.
  intros Hs Hb. unfold get_utf8_string. rewrite Hs.
  assert (Hr : mem_read m1 p l = mem_read m2 p l).
  { unfold mem_read. apply map_ext_in. intros i Hi.
    apply in_seq in Hi. apply Hb. lia. }
  rewrite Hr. reflexivity.
Qed.

(** Two memories of the same size that hold "Rust" at 4096 and differ
    everywhere else. *)
Definition m_rust_ff : Memory :=
  mem_store {| mem_size := mem_size m0; mem_load := fun _ => xff |} 4096 (bytes "Rust").

Lemma get_utf8_string_local_witness :
  mem_load m_rust 0 <> mem_load m_rust_ff 0 /\
  mem_size m_rust = mem_size m_rust_ff /\
  (forall i, 4096 <= i < 4096 + 4 -> mem_load m_rust i = mem_load m_rust_ff i) /\
  get_utf8_string m_rust 4096 4 = get_utf8_string m_rust_ff 4096 4.
Proof.
  assert (H1 : mem_size m_rust = mem_size m_rust_ff) by reflexivity.
  assert (H2 : forall i, 4096 <= i < 4096 + 4 -> mem_load m_rust i = mem_load m_rust_ff i).
  { intros i Hi. unfold m_rust, m_rust_ff. cbn [mem_store mem_load].
    replace ((4096 <=? i) && (i <? 4096 + N.of_nat (List.length (bytes "Rust")))) with true
      by (symmetry; apply andb_true_iff; split; [apply N.leb_le | apply N.ltb_lt];
          cbn; lia).
    reflexivity. }
  split; [vm_compute; discriminate |].
  split; [exact H1 | split; [exact H2 | exact (get_utf8_string_local _ _ _ _ H1 H2)]].
Defined.

(** The numeric value of a string of ASCII decimal digits. *)
Definition dec_value (ds : list byte) : N :=
  fold_left (fun acc b => 10 * acc + (Byte.to_N b - 48)) ds 0.

Definition is_digit (b : byte) : Prop := 48 <= Byte.to_N b <= 57.

Lemma digit_byte_to_N (d : N) : d < 10 -> Byte.to_N (digit_byte d) = 48 + d.
Proof.
  intros Hd.
  assert (d = 0 \/ d = 1 \/ d = 2 \/ d = 3 \/ d = 4 \/ d = 5 \/ d = 6 \/ d = 7
          \/ d = 8 \/ d = 9) as Hc by lia.
  repeat destruct Hc as [-> | Hc]; try reflexivity; subst; reflexivity.
Qed.

Lemma dec_digits_spec (fuel : nat) :
  forall n acc, (N.to_nat (N.log2 n) < fuel)%nat ->
  exists ds, dec_digits fuel n acc = ds ++ acc /\ ds <> [] /\
             Forall is_digit ds /\
             fold_left (fun a b => 10 * a + (Byte.to_N b - 48)) ds 0 = n.
Proof.
  induction fuel as [|f IH]; intros n acc Hf; [lia |].
  cbn [dec_digits].
  pose proof (N.div_mod n 10 ltac:(discriminate)) as Hdm.
  assert (Hm : n mod 10 < 10) by (apply N.mod_lt; discriminate).
  pose proof (digit_byte_to_N _ Hm) as Hd.
  remember (n mod 10) as r eqn:Er. clear Er.
  assert (Hdig : Forall is_digit [digit_byte r])
    by (constructor; [unfold is_digit; rewrite Hd; lia | constructor]).
  destruct (n <? 10) eqn:Hlt.
  - apply N.ltb_lt in Hlt. exists [digit_byte r].
    split; [reflexivity | split; [discriminate | split; [exact Hdig |]]].
    assert (Hq : n / 10 = 0) by (apply N.div_small; exact Hlt).
    cbn. rewrite Hd. lia.
  - apply N.ltb_ge in Hlt.
    assert (Hq : 0 < n / 10) by (apply N.div_str_pos; lia).
    assert (Hlog : N.log2 (n / 10) < N.log2 n).
    { assert (H2 : 2 * (n / 10) <= n) by lia.
      apply N.log2_le_mono in H2. rewrite N.log2_double in H2 by lia. lia. }
    destruct (IH (n / 10) (digit_byte r :: acc) ltac:(lia))
      as [ds [Hr [Hne [Hall Hv]]]].
    exists (ds ++ [digit_byte r]).
    split; [rewrite Hr, <- app_assoc; reflexivity |].
    split; [destruct ds; [contradiction | discriminate] |].
    split.
    + apply Forall_app. split; [exact Hall | exact Hdig].
    + rewrite fold_left_app. rewrite Hv. cbn [fold_left]. rewrite Hd. lia.
Qed.

(** X7: [print_str2] prints the counter in decimal: the printed line is a
    non-empty run of ASCII digits whose value is the counter, then ": ",
    then the decoded string. *)
Theorem print_str2_prints_counter (m : Memory) (p l : N) (h h' : HostState) :
  print_str2 m p l h = HOk h' ->
  exists ds s, get_utf8_string m p l = Some s /\
    out h' = out h ++ [Print (ds ++ bytes ": " ++ s)] /\
    ds <> [] /\ Forall is_digit ds /\ dec_value ds = shared_data h.
Proof.
  unfold print_str2. destruct (get_utf8_string m p l) as [s|]; intros Hc; [| discriminate].
  destruct (shared_poisoned h); [discriminate |].
  injection Hc as <-.
  destruct (dec_digits_spec (S (N.to_nat (N.log2 (shared_data h)))) (shared_data h) []
              ltac:(lia)) as [ds [Hr [Hne [Hall Hv]]]].
  exists ds, s. unfold fmt_dec. rewrite Hr, app_nil_r.
  repeat split; auto.
Qed.

Lemma print_str2_prints_counter_witness :
  print_str2 m0 (hello_ptr L0) 13
    {| shared_data := 1207; shared_poisoned := false; panic_info := None; out := [] |} =
    HOk {| shared_data := 1207; shared_poisoned := false; panic_info := None;
           out := [Print (bytes "1207: Hello, World!")] |} /\
  exists ds s, get_utf8_string m0 (hello_ptr L0) 13 = Some s /\
    [Print (bytes "1207: Hello, World!")] = [] ++ [Print (ds ++ bytes ": " ++ s)] /\
    ds <> [] /\ Forall is_digit ds /\ dec_value ds = 1207.
Proof.
  assert (Hc : print_str2 m0 (hello_ptr L0) 13
    {| shared_data := 1207; shared_poisoned := false; panic_info := None; out := [] |} =
    HOk {| shared_data := 1207; shared_poisoned := false; panic_info := None;
           out := [Print (bytes "1207: Hello, World!")] |}) by (vm_compute; reflexivity).
  split; [exact Hc | exact (print_str2_prints_counter _ _ _ _ _ Hc)].
Defined.

Lemma register_panic_keeps_counter_out (m : Memory) (a b c d e f : N) (h h' : HostState)
    (msg : list byte) :
  (register_panic m a b c d e f h = HOk h' \/ register_panic m a b c d e f h = HPanic msg h') ->
  shared_data h' = shared_data h /\ out h' = out h.
Proof.
  unfold register_panic. destruct (get_utf8_string m a b); [destruct (get_utf8_string m c d) |];
    intros [Hc|Hc]; inversion Hc; subst; cbn; auto.
Qed.

Lemma rust_panic_keeps_counter_out (L : Layout) (m : Memory) (g : GuestState)
    (info : GPanicInfo) (h : HostState) (r : CallResult) (g' : GuestState) (h' : HostState) :
  rust_panic L m g info h = (r, g', h') ->
  (exists e, r = CallErr e) /\ g' = g /\ shared_data h' = shared_data h /\ out h' = out h.
Proof.
  unfold rust_panic. destruct (custom_hook g).
  - unfold hook. destruct (glocation info); cbn [host_import];
      destruct (register_panic _ _ _ _ _ _ _ h) as [h1|msg h1] eqn:E; intros Hc;
      inversion Hc; subst;
      (destruct (register_panic_keeps_counter_out _ _ _ _ _ _ _ _ _ []
                   (or_introl E)) as [? ?]
       || destruct (register_panic_keeps_counter_out _ _ _ _ _ _ _ _ _ msg
                   (or_intror E)) as [? ?]);
      repeat split; eauto.
  - intros Hc. inversion Hc; subst. repeat split; eauto.
Qed.

(** X8: calls of [fails] never print and never touch the shared counter,
    whatever the memory holds; so the driver's loop of [fails] calls leaves
    the counter where [hello_wasm] put it. *)
Theorem fails_keeps_counter (L : Layout) (m : Memory) :
  (forall g h r g' h', fails L m g h = (r, g', h') ->
     shared_data h' = shared_data h /\ out h' = out h) /\
  (forall is g h g' h', fails_loop (instance_call L m) is g h = LCont g' h' ->
     shared_data h' = shared_data h).
Proof.
  assert (Hf : forall g h r g' h', fails L m g h = (r, g', h') ->
             shared_data h' = shared_data h /\ out h' = out h).
  { intros g h r g' h' Hc. unfold fails in Hc.
    destruct (rust_panic_keeps_counter_out _ _ _ _ _ _ _ _ Hc) as [_ [_ [H1 H2]]].
    auto. }
  split; [exact Hf |].
  intros is. induction is as [|i r IH]; intros g h g' h' Hl.
  - cbn in Hl. inversion Hl; subst. reflexivity.
  - cbn [fails_loop] in Hl. unfold fails_iteration in Hl. cbn [instance_call] in Hl.
    destruct (fails L m g (set_panic_info None h)) as [[r0 g1] h1] eqn:E.
    destruct (Hf _ _ _ _ _ E) as [Hs _].
    destruct r0 as [|e]; [discriminate |].
    destruct (panic_info h1); rewrite (IH _ _ _ _ Hl); cbn; rewrite Hs; reflexivity.
Qed.

Lemma fails_keeps_counter_witness :
  fails L0 m_ff guest_init host_init =
    (CallErr (HostFnPanic unwrap_none_msg), register_panic_hook guest_init, host_init) /\
  shared_data host_init = shared_data host_init /\ out host_init = out host_init.
Proof.
  assert (Hc : fails L0 m_ff guest_init host_init =
    (CallErr (HostFnPanic unwrap_none_msg), register_panic_hook guest_init, host_init))
    by (vm_compute; reflexivity).
  split; [exact Hc | exact (proj1 (fails_keeps_counter L0 m_ff) _ _ _ _ _ Hc)].
Defined.

(** X9: the panic record crosses the boundary intact: when the hook runs
    on a textual payload whose bytes [b] and location file [fb] are valid
    UTF-8 inside memory (each starting below the memory size, as the
    runtime's decode requires even of an empty string), the host stores
    exactly message [b] and location [fb:line:column]. *)
Theorem hook_register_roundtrip (L : Layout) (m : Memory) (p : Payload) (s lf : GuestStr)
    (b fb : list byte) (ln col : N) (h : HostState) :
  (p = PString s \/ p = PStaticStr s) ->
  gptr s < mem_size m -> static_at m s b -> utf8_valid b = true ->
  gptr lf < mem_size m -> static_at m lf fb -> utf8_valid fb = true ->
  host_import m (hook L {| payload := p;
                           glocation := Some {| loc_file := lf; loc_line := ln;
                                                loc_column := col |} |}) h =
  HOk (set_panic_info (Some {| message := b;
                               location := Some {| file := fb; line := ln;
                                                   column := col |} |}) h).
Proof.
  intros Hp Hsp Hs Hb Hlp Hl Hfb.
  assert (Hm : hook_message L p = s) by (destruct Hp; subst; reflexivity).
  unfold hook. cbn [payload glocation loc_file loc_line loc_column host_import].
  rewrite Hm. unfold register_panic.
  rewrite (get_utf8_string_in m s b Hsp Hs Hb), (get_utf8_string_in m lf fb Hlp Hl Hfb).
  reflexivity.
Qed.

Lemma hook_register_roundtrip_witness :
  gptr (HELLO L0) < mem_size m0 /\ gptr (LIB_RS L0) < mem_size m0 /\
  host_import m0 (hook L0 {| payload := PString (HELLO L0);
                             glocation := Some {| loc_file := LIB_RS L0; loc_line := 7;
                                                  loc_column := 9 |} |}) host_init =
  HOk (set_panic_info (Some {| message := HELLO_bytes;
                               location := Some {| file := LIB_RS_bytes; line := 7;
                                                   column := 9 |} |}) host_init).
Proof.
  destruct layout_ok_L0 as [Hh [_ [Hl _]]].
  assert (H1 : gptr (HELLO L0) < mem_size m0) by (vm_compute; reflexivity).
  assert (H2 : gptr (LIB_RS L0) < mem_size m0) by (vm_compute; reflexivity).
  split; [exact H1 | split; [exact H2 |]].
  apply (hook_register_roundtrip L0 m0 _ (HELLO L0) (LIB_RS L0)); auto.
Defined.

(** X10: if [HELLO] cannot be decoded (out of bounds or not UTF-8), the very
    first host call of [hello_wasm] panics: the call fails with that panic
    and the host state is untouched (nothing printed, counter unchanged). *)
Theorem hello_wasm_undecodable (L : Layout) (m : Memory) (g : GuestState) (h : HostState) :
  get_utf8_string m (hello_ptr L) 13 = None ->
  hello_wasm L m g h = (CallErr (HostFnPanic unwrap_none_msg), g, h).
Proof.
  intros Hn. unfold hello_wasm. cbn [run_imports host_import HELLO gstr gptr glen].
  unfold print_str. cbn [List.length HELLO_bytes bytes].
  change (N.of_nat _) with 13. rewrite Hn. reflexivity.
Qed.

Lemma hello_wasm_undecodable_witness :
  get_utf8_string m_ff (hello_ptr L0) 13 = None /\
  hello_wasm L0 m_ff guest_init host_init =
    (CallErr (HostFnPanic unwrap_none_msg), guest_init, host_init).
Proof.
  assert (Hn : get_utf8_string m_ff (hello_ptr L0) 13 = None) by (vm_compute; reflexivity).
  split; [exact Hn | exact (hello_wasm_undecodable L0 m_ff guest_init host_init Hn)].
Defined.



(** ** The guest export [hello_string_from_rust] (lib.rs lines 39-47) *)

(** [x as usize] for an [i32] on wasm32: the same 32 bits, unsigned. *)
Definition as_usize (x : Z) : N := Z.to_N (x mod 2 ^ 32).

(** [hello_string_from_rust(ptr, len)]: view [len] bytes at [ptr]
    ([slice::from_raw_parts]), [str::from_utf8(..).unwrap()], then
    [format!("Hello {}", ..)] into a [String] that the allocator places at
    [alloc], and [print_str] of it.  [unwrap_panic] is the panic [unwrap]
    raises on a [Utf8Error].  The result is the call's outcome with the
    guest and host states; the guest memory after the call is not part of
    it (the call also writes the stack, the allocator's state and, when it
    panics, std's panic counters).  [None] when the slice or the new
    [String] does not lie inside the linear memory (where the guest's loads
    and stores trap), which this model leaves out. *)
Definition hello_string_from_rust (L : Layout) (unwrap_panic : GPanicInfo) (alloc : N)
    (m : Memory) (g : GuestState) (h : HostState) (ptr len : Z)
    : option (CallResult * GuestState * HostState) :=
  let p := as_usize ptr in
  let l := as_usize len in
  if mem_size m <? p + l then None
  else
    let slice := mem_read m p l in
    if utf8_valid slice then
      let out_str := bytes "Hello " ++ slice in
      let n := N.of_nat (List.length out_str) in
      if mem_size m <? alloc + n then None
      else
        Some (of_host g (print_str (mem_store m alloc out_str) alloc n h))
    else
      Some (rust_panic L m g unwrap_panic h).

Lemma mem_read_store (m : Memory) (a : N) (bs : list byte) :
  mem_read (mem_store m a bs) a (N.of_nat (List.length bs)) = bs.
Proof.
  unfold mem_read. rewrite Nat2N.id.
  apply nth_ext with (d := x00) (d' := x00).
  - rewrite length_map, length_seq. reflexivity.
  - intros n Hn. rewrite length_map, length_seq in Hn.
    set (f := fun i : nat => mem_load (mem_store m a bs) (a + N.of_nat i)).
    rewrite (nth_indep _ _ (f 0%nat)) by (rewrite length_map, length_seq; exact Hn).
    rewrite map_nth, seq_nth by exact Hn. unfold f. cbn [mem_store mem_load].
    replace ((a <=? a + N.of_nat (0 + n)) && (a + N.of_nat (0 + n) <? a + N.of_nat (List.length bs)))
      with true by (symmetry; apply andb_true_iff; split; [apply N.leb_le | apply N.ltb_lt]; lia).
    f_equal. lia.
Qed.

Lemma utf8_valid_hello (s : list byte) : utf8_valid (bytes "Hello " ++ s) = utf8_valid s.
Proof. reflexivity. Qed.

(** X12: [hello_string_from_rust] greets its argument: when the [len]
    bytes at [ptr] are valid UTF-8 inside memory and the formatted
    [String] fits in memory at [alloc], the call succeeds and the host prints
    exactly "Hello " followed by those bytes. *)
Theorem hello_string_from_rust_greets (L : Layout) (up : GPanicInfo) (alloc : N)
    (m : Memory) (g : GuestState) (h : HostState) (ptr len : Z) :
  as_usize ptr + as_usize len <= mem_size m ->
  utf8_valid (mem_read m (as_usize ptr) (as_usize len)) = true ->
  alloc + N.of_nat (6 + List.length (mem_read m (as_usize ptr) (as_usize len))) <= mem_size m ->
  hello_string_from_rust L up alloc m g h ptr len =
    Some (CallOk, g,
          emit (Print (bytes "Hello " ++ mem_read m (as_usize ptr) (as_usize len))) h).
Proof.
  intros Hb Hv Ha. unfold hello_string_from_rust.
  remember (as_usize ptr) as p eqn:Ep. remember (as_usize len) as l eqn:El.
  clear Ep El.
  replace (mem_size m <? p + l) with false by (symmetry; apply N.ltb_ge; exact Hb).
  cbv zeta. rewrite Hv.
  remember (mem_read m p l) as slice eqn:Es. clear Es.
  assert (Hlen : List.length (bytes "Hello " ++ slice) = (6 + List.length slice)%nat)
    by (rewrite length_app; reflexivity).
  rewrite Hlen.
  replace (mem_size m <? alloc + N.of_nat (6 + List.length slice)) with false
    by (symmetry; apply N.ltb_ge; exact Ha).
  assert (Hg : get_utf8_string (mem_store m alloc (bytes "Hello " ++ slice)) alloc
                 (N.of_nat (6 + List.length slice)) = Some (bytes "Hello " ++ slice)).
  { unfold get_utf8_string. cbn [mem_store mem_size].
    replace (mem_size m <? alloc + N.of_nat (6 + List.length slice)) with false
      by (symmetry; apply N.ltb_ge; exact Ha).
    replace (mem_size m <=? alloc) with false
      by (symmetry; apply N.leb_gt; lia).
    cbn [orb]. rewrite <- Hlen, mem_read_store.
    rewrite utf8_valid_hello, Hv. reflexivity. }
  unfold print_str. rewrite Hg. reflexivity.
Qed.

Lemma hello_string_from_rust_greets_witness :
  as_usize 4096 + as_usize 4 <= mem_size m_rust /\
  mem_read m_rust (as_usize 4096) (as_usize 4) = bytes "Rust" /\
  hello_string_from_rust L0 {| payload := POther; glocation := None |} 8192
    m_rust guest_init host_init 4096 4 =
    Some (CallOk, guest_init,
          emit (Print (bytes "Hello " ++ mem_read m_rust (as_usize 4096) (as_usize 4)))
               host_init).
Proof.
  assert (H1 : as_usize 4096 + as_usize 4 <= mem_size m_rust) by (vm_compute; discriminate).
  assert (H2 : utf8_valid (mem_read m_rust (as_usize 4096) (as_usize 4)) = true)
    by (vm_compute; reflexivity).
  assert (H3 : 8192 + N.of_nat (6 + List.length (mem_read m_rust (as_usize 4096) (as_usize 4)))
               <= mem_size m_rust) by (vm_compute; discriminate).
  split; [exact H1 | split; [vm_compute; reflexivity |]].
  exact (hello_string_from_rust_greets L0 _ 8192 m_rust guest_init host_init 4096 4 H1 H2 H3).
Defined.

(** X13: on bytes that are not valid UTF-8, [hello_string_from_rust]
    prints nothing: the [unwrap] panics, the call fails at the engine level,
    the guest's hook state is as before and so are the host's output and
    counter (at most the panic slot is written, when the hook is
    installed). *)
Theorem hello_string_from_rust_invalid (L : Layout) (up : GPanicInfo) (alloc : N)
    (m : Memory) (g : GuestState) (h : HostState) (ptr len : Z) :
  as_usize ptr + as_usize len <= mem_size m ->
  utf8_valid (mem_read m (as_usize ptr) (as_usize len)) = false ->
  exists e h', hello_string_from_rust L up alloc m g h ptr len =
               Some (CallErr e, g, h') /\
               out h' = out h /\ shared_data h' = shared_data h.
Proof.
  intros Hb Hv. unfold hello_string_from_rust.
  replace (mem_size m <? as_usize ptr + as_usize len) with false
    by (symmetry; apply N.ltb_ge; exact Hb).
  cbv zeta. rewrite Hv.
  destruct (rust_panic L m g up h) as [[r g'] h'] eqn:E.
  destruct (rust_panic_keeps_counter_out _ _ _ _ _ _ _ _ E) as [[e ->] [-> [Hs Ho]]].
  exists e, h'. auto.
Qed.

Lemma hello_string_from_rust_invalid_witness :
  as_usize 0 + as_usize 1 <= mem_size m_ff /\
  utf8_valid (mem_read m_ff (as_usize 0) (as_usize 1)) = false /\
  exists e h', hello_string_from_rust L0 {| payload := POther; glocation := None |} 8192
                 m_ff guest_init host_init 0 1 = Some (CallErr e, guest_init, h') /\
               out h' = out host_init /\ shared_data h' = shared_data host_init.
Proof.
  assert (H1 : as_usize 0 + as_usize 1 <= mem_size m_ff) by (vm_compute; discriminate).
  assert (H2 : utf8_valid (mem_read m_ff (as_usize 0) (as_usize 1)) = false)
    by (vm_compute; reflexivity).
  split; [exact H1 | split; [exact H2 |]].
  exact (hello_string_from_rust_invalid L0 _ 8192 m_ff guest_init host_init 0 1 H1 H2).
Defined.
